(** * The SlackAPI lint configuration ([.eslintrc.js]) as data

    The repository consists of one module whose only statement assigns an
    object literal to [module.exports].  This development embeds that
    literal as a JavaScript value, gives the property reads a consumer
    performs on it, and proves the schema-level properties the
    specification lists for it. *)

From stdpp Require Import gmap strings list fin_maps.

Local Open Scope string_scope.
Local Set Warnings "-register-all".

(** ** JavaScript values

    Only the value forms that occur in the module are needed: booleans,
    numbers (every numeric literal of the file is an integer), strings,
    array literals and object literals.  An object literal is kept as the
    list of its property definitions in the order they are written, so
    that both the order and a possible repetition of a key stay visible. *)

Inductive value : Type :=
  | VBool (b : bool)
  | VNum (n : Z)
  | VStr (s : string)
  | VArr (elems : list value)
  | VObj (props : list (string * value)).

Module Js.

(** Reading property [k] of an object literal: when a key is written
    more than once, the last definition is the one that is read. *)
Definition get_prop (k : string) (props : list (string * value)) : option value :=
  foldl (fun acc kv => if bool_decide (kv.1 = k) then Some kv.2 else acc) None props.

Definition get (k : string) (v : value) : option value :=
  match v with
  | VObj props => get_prop k props
  | _ => None
  end.

(** The property definitions of an object, the elements of an array;
    empty for any other value and for a missing one. *)
Definition props_of (o : option value) : list (string * value) :=
  match o with
  | Some (VObj props) => props
  | _ => []
  end.

Definition elems_of (o : option value) : list value :=
  match o with
  | Some (VArr elems) => elems
  | _ => []
  end.

Definition keys (props : list (string * value)) : list string := props.*1.

(** The strings of an array of strings, in order. *)
Definition strings_of (vs : list value) : list string :=
  omap (fun v => match v with VStr s => Some s | _ => None end) vs.

End Js.

(** ** The exported object, lines 11 to 197 of [.eslintrc.js] *)

Definition top_rules : list (string * value) :=
  [ ("no-tabs", VStr "error");
    ("no-sequences", VStr "error") ].

Definition ts_rules : list (string * value) :=
  [ ("import/no-common-js",
      VArr [VStr "error"; VObj [("allowConditionalRequire", VBool false)]]);
    ("import/named", VStr "off");
    ("@typescript-eslint/strict-boolean-expressions",
      VArr [VStr "error";
            VObj [("allowString", VBool false);
                  ("allowNumber", VBool false);
                  ("allowNullableObject", VBool false)]]);
    ("@typescript-eslint/consistent-type-definitions",
      VArr [VStr "error"; VStr "interface"]);
    ("@typescript-eslint/explicit-member-accessibility", VStr "error");
    ("@typescript-eslint/consistent-type-assertions",
      VArr [VStr "error";
            VObj [("assertionStyle", VStr "as");
                  ("objectLiteralTypeAssertions", VStr "allow-as-parameter")]]);
    ("@typescript-eslint/explicit-module-boundary-types",
      VArr [VStr "error";
            VObj [("allowArgumentsExplicitlyTypedAsAny", VBool true)]]);
    ("jsdoc/no-types", VStr "error") ].

Definition js_ts_rules : list (string * value) :=
  [ ("max-len",
      VArr [VStr "error"; VNum 120%Z; VNum 2%Z;
            VObj [("ignoreUrls", VBool true);
                  ("ignoreComments", VBool false);
                  ("ignoreRegExpLiterals", VBool true);
                  ("ignoreStrings", VBool true);
                  ("ignoreTemplateLiterals", VBool true)]]);
    ("quotes",
      VArr [VStr "error"; VStr "single";
            VObj [("avoidEscape", VBool true);
                  ("allowTemplateLiterals", VBool false)]]);
    ("camelcase", VStr "off");
    ("no-underscore-dangle", VStr "off");
    ("@typescript-eslint/naming-convention",
      VArr [VStr "error";
            VObj [("selector", VStr "default");
                  ("format", VArr [VStr "camelCase"])];
            VObj [("selector", VStr "variable");
                  ("format", VArr [VStr "camelCase"; VStr "PascalCase"; VStr "UPPER_CASE"])];
            VObj [("selector", VStr "parameter");
                  ("format", VArr [VStr "camelCase"]);
                  ("leadingUnderscore", VStr "allow")];
            VObj [("selector", VStr "typeLike");
                  ("format", VArr [VStr "PascalCase"])]]);
    ("import/no-cycle", VStr "off");
    ("import/no-internal-modules",
      VArr [VStr "error"; VObj [("allow", VArr [])]]) ].

Definition ts_override : value :=
  VObj
    [ ("files", VArr [VStr "**/*.ts"]);
      ("parser", VStr "@typescript-eslint/parser");
      ("parserOptions", VObj [("project", VStr "./tsconfig.eslint.json")]);
      ("plugins", VArr [VStr "@typescript-eslint"]);
      ("extends",
        VArr [VStr "plugin:@typescript-eslint/recommended";
              VStr "airbnb-typescript/base"]);
      ("rules", VObj ts_rules) ].

Definition js_ts_override : value :=
  VObj
    [ ("files", VArr [VStr "**/*.js"; VStr "**/*.ts"]);
      ("rules", VObj js_ts_rules) ].

Definition module_exports : value :=
  VObj
    [ ("root", VBool true);
      ("ignorePatterns", VArr [VStr "/dist"; VStr "/coverage"]);
      ("env", VObj [("es2017", VBool true); ("node", VBool true)]);
      ("extends",
        VArr [VStr "eslint:recommended";
              VStr "plugin:node/recommended";
              VStr "airbnb-base";
              VStr "plugin:jsdoc/recommended"]);
      ("rules", VObj top_rules);
      ("overrides", VArr [ts_override; js_ts_override]) ].

(** ** Evaluating the module

    The module has one statement, [module.exports = { ... }]: it stores the
    literal in the [exports] property of the [module] object the loader
    hands to it.  The [module] object is a mutable object used as a map
    from property names to values; evaluation is written as a function on
    its state. *)

Definition eval_module (module : gmap string value) : gmap string value :=
  <["exports" := module_exports]> module.

(** ** The fields a consumer reads *)

Definition root (cfg : value) : option value := Js.get "root" cfg.

Definition ignorePatterns (cfg : value) : list value :=
  Js.elems_of (Js.get "ignorePatterns" cfg).

Definition env (cfg : value) : list (string * value) :=
  Js.props_of (Js.get "env" cfg).

Definition extends (cfg : value) : list value :=
  Js.elems_of (Js.get "extends" cfg).

Definition plugins (cfg : value) : list value :=
  Js.elems_of (Js.get "plugins" cfg).

Definition files (cfg : value) : list value :=
  Js.elems_of (Js.get "files" cfg).

Definition rules (cfg : value) : list (string * value) :=
  Js.props_of (Js.get "rules" cfg).

Definition overrides (cfg : value) : list value :=
  Js.elems_of (Js.get "overrides" cfg).

(** The scope levels of a configuration: its top-level rules mapping,
    then the rules mapping of each override block, in order. *)
Definition scopes (cfg : value) : list (list (string * value)) :=
  rules cfg :: (rules <$> overrides cfg).

(** The ignore globs as a set. *)
Definition ignore_globs (cfg : value) : gset string :=
  list_to_set (Js.strings_of (ignorePatterns cfg)).

(** The environment flags that read as [true]. *)
Definition env_enabled (cfg : value) (flag : string) : bool :=
  match Js.get_prop flag (env cfg) with
  | Some (VBool true) => true
  | _ => false
  end.

Definition enabled_envs (cfg : value) : gset string :=
  list_to_set (filter (fun flag => env_enabled cfg flag) (Js.keys (env cfg))).

Definition is_bool (v : value) : bool :=
  match v with VBool _ => true | _ => false end.

(** ** Rule entries

    The severity vocabulary of the glossary, and the severity a rule entry
    carries: the entry itself when it is a string, the first element when
    it is an array. *)

Definition severity_levels : list string := ["off"; "warn"; "error"].

Definition severity_of (entry : value) : option string :=
  match entry with
  | VStr sev => Some sev
  | VArr (VStr sev :: _) => Some sev
  | _ => None
  end.

Definition options_of (entry : value) : list value :=
  match entry with
  | VArr (_ :: opts) => opts
  | _ => []
  end.

Definition rule_entry_ok (entry : value) : bool :=
  match severity_of entry with
  | Some sev => bool_decide (sev ∈ severity_levels)
  | None => false
  end.

(** Whether the string [s] occurs anywhere in a value, as a string or as
    a property name. *)
Fixpoint mentions (s : string) (v : value) : bool :=
  match v with
  | VStr t => bool_decide (t = s)
  | VArr elems => existsb (mentions s) elems
  | VObj props =>
      existsb (fun kv => bool_decide (kv.1 = s) || mentions s kv.2) props
  | _ => false
  end.

(** What an override block carries of its own. *)
Definition carries_presets_plugins_rules (blk : value) : Prop :=
  is_Some (Js.get "extends" blk) ∧ is_Some (Js.get "plugins" blk)
  ∧ is_Some (Js.get "rules" blk).

(** ** Effective rules for a file *)

(** Modelled from the spec: the merge step of the external lint engine,
    "later entries winning on conflicting keys".  The properties are
    written into the map one after the other, as [Object.assign] does, so
    a later definition of a key replaces an earlier one. *)
Definition assign (m : gmap string value) (props : list (string * value))
  : gmap string value :=
  foldl (fun acc kv => <[kv.1 := kv.2]> acc) m props.

Section Engine.

(** The glob matcher of the lint engine, [matches glob path]. *)
Variable matches : string → string → bool.

(** Modelled from the spec: a block is scoped by its file-glob
    predicate, the globs of its [files] array; it applies to a path that
    one of them matches. *)
Definition block_applies (path : string) (blk : value) : bool :=
  existsb (fun glob => matches glob path) (Js.strings_of (files blk)).

(** Modelled from the spec: the rule defaults that an installed preset
    bundles, by preset name.  The presets are third-party packages and
    not part of the repository, so their contents are left open. *)
Variable preset : string → list (string * value).

(** Modelled from the spec: what one level of the configuration (the top
    level or an override block) contributes.  The presets it extends come
    first, in the order of its list, and its own rules are layered on
    top of them. *)
Definition level_entries (lvl : value) : list (string * value) :=
  mjoin (preset <$> Js.strings_of (extends lvl)) ++ rules lvl.

(** Modelled from the spec: the rule merging of the external lint
    engine, which is not part of the repository.  The override blocks
    are applied in list order on top of the top-level configuration; a
    block is applied to a file when one of its globs matches the path,
    and a later entry replaces an earlier entry for the same rule
    identifier. *)
Definition effective_rules (cfg : value) (path : string) : gmap string value :=
  foldl (fun acc blk =>
           if block_applies path blk then assign acc (level_entries blk) else acc)
        (assign ∅ (level_entries cfg)) (overrides cfg).

End Engine.

(** A matcher for the globs of the form [**/*suffix]: the path has to end
    in the suffix.  Any other glob has to equal the path. *)
Definition ends_with (suffix path : string) : bool :=
  let n := String.length suffix in
  let m := String.length path in
  Nat.leb n m && String.eqb (String.substring (m - n) n path) suffix.

Definition suffix_matches (glob path : string) : bool :=
  if String.prefix "**/*" glob
  then ends_with (String.substring 4 (String.length glob - 4) glob) path
  else String.eqb glob path.

(** A sample installation of presets for running the definitions.  Its
    entries are made up for the purpose: they define rules that the
    configuration defines as well, at every level. *)
Definition sample_preset (name : string) : list (string * value) :=
  if String.eqb name "airbnb-base" then
    [ ("max-len", VArr [VStr "error"; VNum 100%Z]);
      ("quotes", VArr [VStr "error"; VStr "double"]);
      ("no-tabs", VStr "warn");
      ("import/named", VStr "error");
      ("eqeqeq", VStr "error") ]
  else if String.eqb name "plugin:jsdoc/recommended" then
    [ ("max-len", VStr "off");
      ("jsdoc/no-types", VStr "off") ]
  else if String.eqb name "plugin:@typescript-eslint/recommended" then
    [ ("no-sequences", VStr "off");
      ("camelcase", VStr "warn") ]
  else if String.eqb name "airbnb-typescript/base" then
    [ ("max-len", VArr [VStr "warn"; VNum 80%Z]);
      ("no-tabs", VStr "off");
      ("import/named", VStr "warn");
      ("camelcase", VStr "error") ]
  else [].

(** ** Traversing the exported object *)

(** A value together with every value nested in it: the elements of its
    arrays and the property values of its objects, at any depth. *)
Fixpoint subvalues (v : value) : list value :=
  v :: match v with
       | VArr elems => flat_map subvalues elems
       | VObj props => flat_map (fun kv => subvalues kv.2) props
       | _ => []
       end.

(** The shape in which a rule entry is written: a bare string, or an
    array that starts with the severity ['error'] and goes on with at
    least one option. *)
Definition bare_or_error_with_options (entry : value) : bool :=
  match entry with
  | VStr _ => true
  | VArr (VStr sev :: _ :: _) => bool_decide (sev = "error")
  | _ => false
  end.

(** ** The options of the naming-convention rule *)

(** The option objects written after the severity of the
    [@typescript-eslint/naming-convention] entry of a block. *)
Definition naming_options (blk : value) : list value :=
  match Js.get_prop "@typescript-eslint/naming-convention" (rules blk) with
  | Some entry => options_of entry
  | None => []
  end.

Definition selector_of (opt : value) : option string :=
  match Js.get "selector" opt with
  | Some (VStr sel) => Some sel
  | _ => None
  end.

Definition formats_of (opt : value) : list string :=
  Js.strings_of (Js.elems_of (Js.get "format" opt)).

Definition allows_leading_underscore (opt : value) : bool :=
  match Js.get "leadingUnderscore" opt with
  | Some (VStr "allow") => true
  | _ => false
  end.

(** ** Running the definitions on the module *)

Example get_last_definition :
  Js.get_prop "a" [("a", VNum 1%Z); ("b", VNum 2%Z); ("a", VNum 3%Z)] = Some (VNum 3%Z).
Proof. reflexivity. Qed.

Example root_reads : root module_exports = Some (VBool true).
Proof. reflexivity. Qed.

Example overrides_read : overrides module_exports = [ts_override; js_ts_override].
Proof. reflexivity. Qed.

Example scopes_read : scopes module_exports = [top_rules; ts_rules; js_ts_rules].
Proof. reflexivity. Qed.

Example suffix_matches_ts : suffix_matches "**/*.ts" "src/App.ts" = true.
Proof. reflexivity. Qed.

Example suffix_matches_js : suffix_matches "**/*.ts" "src/App.js" = false.
Proof. reflexivity. Qed.

Example ts_file_in_both_blocks :
  block_applies suffix_matches "src/App.ts" <$> overrides module_exports = [true; true].
Proof. reflexivity. Qed.

Example js_file_in_last_block :
  block_applies suffix_matches "src/App.js" <$> overrides module_exports = [false; true].
Proof. reflexivity. Qed.

(** ** Property reads *)

Lemma get_prop_snoc k props kv :
  Js.get_prop k (props ++ [kv])
  = if bool_decide (kv.1 = k) then Some kv.2 else Js.get_prop k props.
Proof. unfold Js.get_prop. by rewrite foldl_app. Qed.

Lemma get_prop_None k props : Js.get_prop k props = None ↔ k ∉ Js.keys props.
Proof.
  induction props as [|kv props IH] using rev_ind.
  - split; [intros _; apply not_elem_of_nil | done].
  - rewrite get_prop_snoc. unfold Js.keys in *.
    rewrite fmap_app, not_elem_of_app. simpl.
    case_bool_decide as Hk.
    + split; [done | intros [_ Hn]]. exfalso. apply Hn. rewrite Hk. left.
    + rewrite IH. split; [intros Hn; split; [done|] | by intros [? _]].
      intros Hin. apply list_elem_of_singleton in Hin. congruence.
Qed.

Lemma get_prop_Some_elem k props v : Js.get_prop k props = Some v → (k, v) ∈ props.
Proof.
  induction props as [|kv props IH] using rev_ind; [done|].
  rewrite get_prop_snoc. case_bool_decide as Hk.
  - intros [= <-]. subst k. apply elem_of_app. right.
    destruct kv. left.
  - intros Hg. apply elem_of_app. left. by apply IH.
Qed.

(** When no key is repeated, every definition of the literal is read. *)
Lemma get_prop_NoDup k props v :
  NoDup (Js.keys props) → (k, v) ∈ props → Js.get_prop k props = Some v.
Proof.
  induction props as [|kv props IH] using rev_ind.
  - intros _ Hin. by apply elem_of_nil in Hin.
  - unfold Js.keys in *. rewrite fmap_app, get_prop_snoc. simpl.
    intros Hnd Hin. apply NoDup_app in Hnd as (Hnd & Hfresh & _).
    apply elem_of_app in Hin as [Hin | Hin].
    + case_bool_decide as Hk.
      * exfalso. apply (Hfresh k); [|rewrite <- Hk; left].
        apply list_elem_of_fmap. by exists (k, v).
      * by apply IH.
    + apply list_elem_of_singleton in Hin. subst kv. simpl.
      by rewrite bool_decide_eq_true_2.
Qed.

(** ** The scalar fields *)

(** C5: the configuration has a root-scope flag, it is a boolean, and it
    is set to [true]. *)
Theorem root_flag_is_true :
  root module_exports = Some (VBool true)
  ∧ (∃ v, root module_exports = Some v ∧ is_bool v = true).
Proof. split; [reflexivity|]. exists (VBool true). by split. Qed.

(** C6: the configuration has a list of ignore-path globs, all of them
    strings, and as a set it consists of exactly ['/dist'] and
    ['/coverage']. *)
Theorem ignore_globs_exact :
  ignorePatterns module_exports = [VStr "/dist"; VStr "/coverage"]
  ∧ ignore_globs module_exports = {[ "/dist"; "/coverage" ]}
  ∧ size (ignore_globs module_exports) = 2%nat.
Proof.
  assert (Hset : ignore_globs module_exports = {[ "/dist"; "/coverage" ]}).
  { unfold ignore_globs. simpl. set_solver. }
  split; [reflexivity|]. split; [exact Hset|].
  rewrite Hset, size_union, !size_singleton; [done|]. set_solver.
Qed.

(** C7: the configuration has an environment mapping whose values are all
    booleans, and the flags that are enabled are exactly ['es2017'] and
    ['node']. *)
Theorem env_flags_exact :
  Js.get "env" module_exports
    = Some (VObj [("es2017", VBool true); ("node", VBool true)])
  ∧ forallb (fun kv => is_bool kv.2) (env module_exports) = true
  ∧ enabled_envs module_exports = {[ "es2017"; "node" ]}.
Proof.
  split; [reflexivity|]. split; [reflexivity|].
  unfold enabled_envs. simpl. set_solver.
Qed.

(** ** Evaluation of the module *)

Lemma eval_module_frame module k :
  k ≠ "exports" → eval_module module !! k = module !! k.
Proof. intros Hk. unfold eval_module. by rewrite lookup_insert_ne. Qed.

(** After the assignment the [exports] property holds the literal. *)
Lemma eval_module_exports module :
  eval_module module !! "exports" = Some module_exports.
Proof. unfold eval_module. by rewrite lookup_insert_eq. Qed.

(** ** The rule mappings *)

Lemma scope_keys_NoDup :
  Forall (fun scope => NoDup (Js.keys scope)) (scopes module_exports).
Proof.
  change (scopes module_exports) with [top_rules; ts_rules; js_ts_rules].
  repeat apply Forall_cons_2; [| | | apply Forall_nil_2];
    cbv beta; apply (bool_decide_unpack _); by vm_compute.
Qed.

(** In every scope level each entry that is written is the entry that is
    read: no definition is shadowed by a later one. *)
Lemma no_entry_shadowed scope id entry :
  scope ∈ scopes module_exports → (id, entry) ∈ scope →
  Js.get_prop id scope = Some entry.
Proof.
  intros Hscope Hentry. apply get_prop_NoDup; [|done].
  pose proof scope_keys_NoDup as Hnd. rewrite Forall_forall in Hnd. auto.
Qed.

(** No rule identifier is written in two scope levels either. *)
Lemma all_rule_ids_NoDup : NoDup (mjoin (Js.keys <$> scopes module_exports)).
Proof. apply (bool_decide_unpack _). by vm_compute. Qed.

(** C2: at each scope level (the top-level rules, the rules of the first
    override block, the rules of the second override block) any two
    distinct entries have different rule identifiers. *)
Theorem rule_ids_distinct_per_scope
    (scope : list (string * value)) (i j : nat) (e1 e2 : string * value) :
  scope ∈ scopes module_exports →
  scope !! i = Some e1 → scope !! j = Some e2 → i ≠ j →
  e1.1 ≠ e2.1.
Proof.
  intros Hscope Hi Hj Hij Heq.
  pose proof scope_keys_NoDup as Hnd.
  rewrite Forall_forall in Hnd. specialize (Hnd scope Hscope).
  apply Hij. apply (NoDup_lookup (Js.keys scope) i j e1.1); [done | |];
    unfold Js.keys; rewrite list_lookup_fmap.
  - by rewrite Hi.
  - by rewrite Hj, Heq.
Qed.

Lemma rule_ids_distinct_per_scope_witness :
  "import/no-common-js" ≠ "import/named".
Proof.
  apply (rule_ids_distinct_per_scope ts_rules 0 1
           ("import/no-common-js",
             VArr [VStr "error"; VObj [("allowConditionalRequire", VBool false)]])
           ("import/named", VStr "off")).
  - apply list_elem_of_further, list_elem_of_here.
  - reflexivity.
  - reflexivity.
  - lia.
Defined.

Lemma rule_entry_ok_shape entry :
  rule_entry_ok entry = true →
  ∃ sev, sev ∈ severity_levels
         ∧ (entry = VStr sev ∨ entry = VArr (VStr sev :: options_of entry)).
Proof.
  unfold rule_entry_ok.
  destruct entry as [| | sev | [|[| | sev | |] opts] |]; simpl; try done;
    intros Hsev%bool_decide_eq_true_1; exists sev; eauto.
Qed.

Lemma scopes_forallb (P : value → bool) scope id entry :
  forallb (fun sc => forallb (fun kv => P kv.2) sc) (scopes module_exports) = true →
  scope ∈ scopes module_exports → (id, entry) ∈ scope → P entry = true.
Proof.
  intros Hall Hscope Hentry.
  apply Is_true_true_2, forallb_True in Hall.
  rewrite Forall_forall in Hall. specialize (Hall scope Hscope).
  apply forallb_True in Hall. rewrite Forall_forall in Hall.
  apply Is_true_true_1. exact (Hall (id, entry) Hentry).
Qed.

(** C3: every entry of every rules mapping maps its rule identifier
    either to a severity level string or to an array whose first element
    is a severity level string, followed by the options of the rule. *)
Theorem rule_entries_well_formed
    (scope : list (string * value)) (id : string) (entry : value) :
  scope ∈ scopes module_exports → (id, entry) ∈ scope →
  ∃ sev, sev ∈ severity_levels
         ∧ (entry = VStr sev ∨ entry = VArr (VStr sev :: options_of entry)).
Proof.
  intros Hscope Hentry. apply rule_entry_ok_shape.
  by apply (scopes_forallb rule_entry_ok scope id).
Qed.

Lemma rule_entries_well_formed_witness :
  ∃ sev, sev ∈ severity_levels
         ∧ (VArr [VStr "error"; VStr "interface"] = VStr sev
            ∨ VArr [VStr "error"; VStr "interface"]
              = VArr (VStr sev :: options_of (VArr [VStr "error"; VStr "interface"]))).
Proof.
  apply (rule_entries_well_formed ts_rules
           "@typescript-eslint/consistent-type-definitions").
  - apply list_elem_of_further, list_elem_of_here.
  - do 3 apply list_elem_of_further. apply list_elem_of_here.
Defined.

(** C10: every rule entry at every scope level has severity ['error'] or
    ['off']; ['warn'] is the severity of no entry. *)
Theorem severities_error_or_off
    (scope : list (string * value)) (id : string) (entry : value) :
  scope ∈ scopes module_exports → (id, entry) ∈ scope →
  ∃ sev, severity_of entry = Some sev
         ∧ (sev = "error" ∨ sev = "off") ∧ sev ≠ "warn".
Proof.
  intros Hscope Hentry.
  pose proof (scopes_forallb
                (fun e => match severity_of e with
                          | Some sev => bool_decide (sev ∈ ["error"; "off"])
                          | None => false
                          end) scope id entry eq_refl Hscope Hentry) as Hsev.
  simpl in Hsev. destruct (severity_of entry) as [sev|]; [|done].
  apply bool_decide_eq_true_1 in Hsev. exists sev. split; [done|].
  set_unfold. destruct Hsev as [-> | [-> | []]]; split; auto; discriminate.
Qed.

Lemma severities_error_or_off_witness :
  ∃ sev, severity_of (VStr "off") = Some sev
         ∧ (sev = "error" ∨ sev = "off") ∧ sev ≠ "warn".
Proof.
  apply (severities_error_or_off js_ts_rules "camelcase").
  - do 2 apply list_elem_of_further. apply list_elem_of_here.
  - do 2 apply list_elem_of_further. apply list_elem_of_here.
Defined.

(** The string ['warn'] is written nowhere in the exported object, the
    strings ['error'] and ['off'] are. *)
Lemma warn_not_mentioned :
  mentions "warn" module_exports = false
  ∧ mentions "error" module_exports = true
  ∧ mentions "off" module_exports = true.
Proof. by vm_compute. Qed.

(** ** Preset lists and override blocks *)

(** The second override block has no preset list and no plugin list of
    its own, so not every block carries both of them. *)
Lemma not_every_block_carries_lists :
  js_ts_override ∈ overrides module_exports
  ∧ Js.get "extends" js_ts_override = None
  ∧ Js.get "plugins" js_ts_override = None
  ∧ ¬ Forall carries_presets_plugins_rules (overrides module_exports).
Proof.
  split; [apply list_elem_of_further, list_elem_of_here|].
  split; [reflexivity|]. split; [reflexivity|].
  intros Hall. rewrite Forall_forall in Hall.
  destruct (Hall js_ts_override) as [[v Hv] _];
    [apply list_elem_of_further, list_elem_of_here | discriminate Hv].
Qed.

(** C8, as amended: the top-level preset list is the four names in their
    order, and the override blocks are the two of the file in their
    order.  Every block has a list of file globs and a rules mapping of
    its own.  The ['**/*.ts'] block also has its preset list and its
    plugin list; the ['**/*.js'], ['**/*.ts'] block consists of its globs
    and its rules only. *)
Theorem presets_and_override_blocks :
  extends module_exports
    = [VStr "eslint:recommended"; VStr "plugin:node/recommended";
       VStr "airbnb-base"; VStr "plugin:jsdoc/recommended"]
  ∧ overrides module_exports = [ts_override; js_ts_override]
  ∧ Forall (fun blk => is_Some (Js.get "files" blk) ∧ is_Some (Js.get "rules" blk))
           (overrides module_exports)
  ∧ files ts_override = [VStr "**/*.ts"]
  ∧ extends ts_override
      = [VStr "plugin:@typescript-eslint/recommended"; VStr "airbnb-typescript/base"]
  ∧ plugins ts_override = [VStr "@typescript-eslint"]
  ∧ Js.get "rules" ts_override = Some (VObj ts_rules)
  ∧ carries_presets_plugins_rules ts_override
  ∧ Js.keys (Js.props_of (Some js_ts_override)) = ["files"; "rules"]
  ∧ files js_ts_override = [VStr "**/*.js"; VStr "**/*.ts"]
  ∧ Js.get "rules" js_ts_override = Some (VObj js_ts_rules).
Proof.
  repeat split; try reflexivity; try (eexists; reflexivity).
  repeat apply Forall_cons_2; [| | apply Forall_nil_2];
    split; eexists; reflexivity.
Qed.

(** ** Override precedence *)

Lemma assign_snoc m props kv :
  assign m (props ++ [kv]) = <[kv.1 := kv.2]> (assign m props).
Proof. unfold assign. by rewrite foldl_app. Qed.

Lemma assign_app m props1 props2 :
  assign (assign m props1) props2 = assign m (props1 ++ props2).
Proof. unfold assign. by rewrite foldl_app. Qed.

(** Reading the assigned map: the last definition among the assigned
    properties, and the map underneath for the keys that were not
    assigned. *)
Lemma assign_lookup m props k :
  assign m props !! k
  = match Js.get_prop k props with Some v => Some v | None => m !! k end.
Proof.
  induction props as [|kv props IH] using rev_ind; [done|].
  rewrite assign_snoc, get_prop_snoc, lookup_insert.
  case_decide; case_bool_decide; done.
Qed.

Lemma get_prop_app k props1 props2 :
  Js.get_prop k (props1 ++ props2)
  = match Js.get_prop k props2 with
    | Some v => Some v
    | None => Js.get_prop k props1
    end.
Proof.
  induction props2 as [|kv props2 IH] using rev_ind.
  - by rewrite app_nil_r.
  - rewrite app_assoc, !get_prop_snoc. by case_bool_decide.
Qed.

Lemma foldl_two {A B} (f : A → B → A) (a : A) (x y : B) :
  foldl f a [x; y] = f (f a x) y.
Proof. reflexivity. Qed.

Section Precedence.

Variable matches : string → string → bool.
Variable preset : string → list (string * value).

(** The effective rules are the entries of the top level followed by the
    entries of the blocks that apply, assigned in that order. *)
Lemma effective_rules_assign cfg path :
  effective_rules matches preset cfg path
  = assign ∅ (level_entries preset cfg
              ++ mjoin (level_entries preset
                          <$> filter (fun blk => block_applies matches path blk)
                                     (overrides cfg))).
Proof.
  unfold effective_rules.
  generalize (level_entries preset cfg) as base.
  induction (overrides cfg) as [|blk blks IH]; intros base; simpl.
  - by rewrite app_nil_r.
  - rewrite filter_cons. case_decide as Happ.
    + apply Is_true_true_1 in Happ. rewrite Happ, assign_app, IH. simpl.
      by rewrite app_assoc.
    + apply Is_true_false_1 in Happ. rewrite Happ. apply IH.
Qed.

(** For any configuration, the effective entry of a rule identifier is
    its last definition in the entries of the top level followed by the
    entries of the applicable blocks in declaration order. *)
Lemma effective_rules_lookup cfg path id :
  effective_rules matches preset cfg path !! id
  = Js.get_prop id
      (level_entries preset cfg
       ++ mjoin (level_entries preset
                   <$> filter (fun blk => block_applies matches path blk)
                              (overrides cfg))).
Proof.
  rewrite effective_rules_assign, assign_lookup, lookup_empty.
  by destruct (Js.get_prop id _).
Qed.

(** A file that the ['**/*.ts'] block applies to is also one the second
    block applies to, whatever the matcher. *)
Lemma ts_block_applies_js_ts_block path :
  block_applies matches path ts_override = true →
  block_applies matches path js_ts_override = true.
Proof.
  unfold block_applies. simpl. rewrite !orb_false_r. intros ->.
  apply orb_true_r.
Qed.

Lemma more_than_one_block_applies path :
  (1 < length (filter (fun blk => block_applies matches path blk)
                      (overrides module_exports)))%nat →
  block_applies matches path ts_override = true
  ∧ block_applies matches path js_ts_override = true.
Proof.
  change (overrides module_exports) with [ts_override; js_ts_override].
  rewrite !filter_cons, filter_nil.
  repeat case_decide; simpl; intros Hlen; try lia.
  split; by apply Is_true_true_1.
Qed.

End Precedence.

(** C1: for a file that more than one override block applies to, the
    blocks are applied in declaration order on top of the top-level
    configuration and the later entry wins, whatever the presets
    contain.  The effective entry of a rule identifier is the entry of
    the second block when it has one; else the entry of the first block,
    which is its own rule or else the one of its presets; else the
    top-level entry, which is the top-level rule or else the one of the
    top-level presets. *)
Theorem overrides_apply_in_order
    (matches : string → string → bool) (preset : string → list (string * value))
    (path id : string) :
  (1 < length (filter (fun blk => block_applies matches path blk)
                      (overrides module_exports)))%nat →
  effective_rules matches preset module_exports path !! id
  = match Js.get_prop id js_ts_rules with
    | Some entry => Some entry
    | None =>
        match Js.get_prop id ts_rules with
        | Some entry => Some entry
        | None =>
            match Js.get_prop id (preset "plugin:@typescript-eslint/recommended"
                                  ++ preset "airbnb-typescript/base") with
            | Some entry => Some entry
            | None =>
                match Js.get_prop id top_rules with
                | Some entry => Some entry
                | None =>
                    Js.get_prop id (preset "eslint:recommended"
                                    ++ preset "plugin:node/recommended"
                                    ++ preset "airbnb-base"
                                    ++ preset "plugin:jsdoc/recommended")
                end
            end
        end
    end.
Proof.
  intros [Hts Hjs]%more_than_one_block_applies.
  unfold effective_rules.
  change (overrides module_exports) with [ts_override; js_ts_override].
  rewrite foldl_two, Hts, Hjs, !assign_lookup, lookup_empty.
  unfold level_entries.
  change (rules js_ts_override) with js_ts_rules.
  change (rules ts_override) with ts_rules.
  change (rules module_exports) with top_rules.
  change (Js.strings_of (extends js_ts_override)) with (@nil string).
  change (Js.strings_of (extends ts_override))
    with ["plugin:@typescript-eslint/recommended"; "airbnb-typescript/base"].
  change (Js.strings_of (extends module_exports))
    with ["eslint:recommended"; "plugin:node/recommended"; "airbnb-base";
          "plugin:jsdoc/recommended"].
  cbn [fmap list_fmap mjoin list_join]. rewrite app_nil_l, !app_nil_r, !get_prop_app.
  repeat (match goal with
          | |- context [Js.get_prop ?k ?l] => destruct (Js.get_prop k l)
          end); reflexivity.
Qed.

Lemma overrides_apply_in_order_witness :
  effective_rules suffix_matches sample_preset module_exports "src/App.ts" !! "max-len"
  = Some (VArr [VStr "error"; VNum 120%Z; VNum 2%Z;
                VObj [("ignoreUrls", VBool true);
                      ("ignoreComments", VBool false);
                      ("ignoreRegExpLiterals", VBool true);
                      ("ignoreStrings", VBool true);
                      ("ignoreTemplateLiterals", VBool true)]]).
Proof.
  apply (overrides_apply_in_order suffix_matches sample_preset "src/App.ts" "max-len").
  vm_compute. lia.
Defined.

(** With the sample presets, ['max-len'] is defined by two top-level
    presets, by a preset of the first block and by the second block: the
    entry of the second block is the effective one. *)
Example ts_file_max_len_levels :
  Js.get_prop "max-len" (sample_preset "airbnb-base")
    = Some (VArr [VStr "error"; VNum 100%Z])
  ∧ Js.get_prop "max-len" (sample_preset "plugin:jsdoc/recommended") = Some (VStr "off")
  ∧ Js.get_prop "max-len" (sample_preset "airbnb-typescript/base")
    = Some (VArr [VStr "warn"; VNum 80%Z])
  ∧ Js.get_prop "max-len" js_ts_rules
    = effective_rules suffix_matches sample_preset module_exports "src/App.ts" !! "max-len".
Proof. by vm_compute. Qed.

(** The rule of the first block wins over the presets of that block and
    over the top-level presets. *)
Example ts_file_import_named :
  effective_rules suffix_matches sample_preset module_exports "src/App.ts" !! "import/named"
  = Some (VStr "off").
Proof. by vm_compute. Qed.

(** A preset of the first block wins over a top-level rule. *)
Example ts_file_no_tabs :
  effective_rules suffix_matches sample_preset module_exports "src/App.ts" !! "no-tabs"
  = Some (VStr "off").
Proof. by vm_compute. Qed.

(** Outside the first block the top-level rule wins over the top-level
    preset, and the rule that only the first block switches off keeps
    the entry of the top-level preset. *)
Example js_file_no_tabs :
  effective_rules suffix_matches sample_preset module_exports "src/App.js" !! "no-tabs"
  = Some (VStr "error").
Proof. by vm_compute. Qed.

Example js_file_import_named :
  effective_rules suffix_matches sample_preset module_exports "src/App.js" !! "import/named"
  = Some (VStr "error").
Proof. by vm_compute. Qed.

(** Among the presets of one list the later one wins. *)
Example later_preset_wins :
  effective_rules suffix_matches sample_preset module_exports "README.md" !! "max-len"
  = Some (VStr "off").
Proof. by vm_compute. Qed.

(** On a configuration in which three scope levels define the same rule,
    the entry of the last applicable block is the effective one. *)
Example later_block_wins :
  effective_rules suffix_matches (fun _ => [])
    (VObj [("rules", VObj [("quotes", VStr "off")]);
           ("overrides",
             VArr [VObj [("files", VArr [VStr "**/*.ts"]);
                         ("rules", VObj [("quotes", VStr "warn")])];
                   VObj [("files", VArr [VStr "**/*.js"; VStr "**/*.ts"]);
                         ("rules", VObj [("quotes", VStr "error")])]])])
    "src/App.ts" !! "quotes"
  = Some (VStr "error").
Proof. by vm_compute. Qed.

(** ** Scope levels against each other *)

Lemma get_prop_is_key k props v : Js.get_prop k props = Some v → k ∈ Js.keys props.
Proof.
  intros Hg. destruct (decide (k ∈ Js.keys props)) as [|Hn]; [done|].
  apply get_prop_None in Hn. congruence.
Qed.

Lemma keys_apart_computed (s1 s2 : list (string * value)) :
  forallb (fun k => bool_decide (k ∉ Js.keys s2)) (Js.keys s1) = true →
  ∀ id, id ∈ Js.keys s1 → id ∉ Js.keys s2.
Proof.
  intros Hall%Is_true_true_2%forallb_True id Hin.
  rewrite Forall_forall in Hall. apply (bool_decide_unpack _). by apply Hall.
Qed.

(** X2: two different scope levels never define the same rule
    identifier: a rule written at one level (top level, first block,
    second block) is written at no other level. *)
Theorem scopes_pairwise_disjoint
    (i j : nat) (s1 s2 : list (string * value)) (id : string) :
  scopes module_exports !! i = Some s1 → scopes module_exports !! j = Some s2 →
  i ≠ j → id ∈ Js.keys s1 → id ∉ Js.keys s2.
Proof.
  change (scopes module_exports) with [top_rules; ts_rules; js_ts_rules].
  intros Hi Hj Hij. revert id.
  destruct i as [|[|[|i]]]; destruct j as [|[|[|j]]];
    simpl in Hi, Hj; simplify_eq; try done; by apply keys_apart_computed.
Qed.

Lemma scopes_pairwise_disjoint_witness :
  "jsdoc/no-types" ∉ Js.keys js_ts_rules.
Proof.
  apply (scopes_pairwise_disjoint 1 2 ts_rules js_ts_rules "jsdoc/no-types").
  - reflexivity.
  - reflexivity.
  - lia.
  - do 7 apply list_elem_of_further. apply list_elem_of_here.
Defined.

(** ** Which files the blocks apply to *)

(** X1: whatever the glob matcher, more than one override block applies
    to a file exactly when the ['**/*.ts'] block applies to it: the
    globs of the first block are among those of the second. *)
Theorem several_blocks_iff_ts_block (matches : string → string → bool) (path : string) :
  (1 < length (filter (fun blk => block_applies matches path blk)
                      (overrides module_exports)))%nat
  ↔ block_applies matches path ts_override = true.
Proof.
  split.
  - by intros [Hts _]%more_than_one_block_applies.
  - intros Hts.
    pose proof (ts_block_applies_js_ts_block matches path Hts) as Hjs.
    change (overrides module_exports) with [ts_override; js_ts_override].
    rewrite !filter_cons, filter_nil.
    rewrite !decide_True by (by apply Is_true_true_2). simpl. lia.
Qed.

(** X8: every override block is scoped by at least one glob, its globs
    are all strings, and each of them selects files by extension: it
    starts with ['**/*.']. *)
Theorem override_globs_select_by_extension (blk : value) :
  blk ∈ overrides module_exports →
  files blk ≠ []
  ∧ length (Js.strings_of (files blk)) = length (files blk)
  ∧ Forall (fun glob => String.prefix "**/*." glob = true) (Js.strings_of (files blk)).
Proof.
  change (overrides module_exports) with [ts_override; js_ts_override].
  intros Hblk. apply elem_of_cons in Hblk as [-> | Hblk];
    [| apply list_elem_of_singleton in Hblk as ->];
    (split; [done | split; [reflexivity | repeat constructor]]).
Qed.

Lemma override_globs_select_by_extension_witness :
  files js_ts_override ≠ []
  ∧ length (Js.strings_of (files js_ts_override)) = length (files js_ts_override)
  ∧ Forall (fun glob => String.prefix "**/*." glob = true)
           (Js.strings_of (files js_ts_override)).
Proof.
  apply (override_globs_select_by_extension js_ts_override).
  apply list_elem_of_further, list_elem_of_here.
Defined.

(** ** Object literals at any depth *)

Example subvalues_of_env :
  subvalues (VObj [("es2017", VBool true); ("node", VBool true)])
  = [VObj [("es2017", VBool true); ("node", VBool true)]; VBool true; VBool true].
Proof. reflexivity. Qed.

Lemma nested_keys_computed :
  forallb (fun v => match v with
                    | VObj props => bool_decide (NoDup (Js.keys props))
                    | _ => true
                    end) (subvalues module_exports) = true.
Proof. by vm_compute. Qed.

(** X6: no object literal of the module, at any depth (the exported
    object, the blocks, the rule mappings, the options of the rules),
    writes a key twice; so every property that is written is the one
    that is read under its key. *)
Theorem nested_objects_have_unique_keys (props : list (string * value)) :
  VObj props ∈ subvalues module_exports →
  NoDup (Js.keys props)
  ∧ ∀ k v, (k, v) ∈ props → Js.get_prop k props = Some v.
Proof.
  intros Hin.
  pose proof nested_keys_computed as Hall.
  apply Is_true_true_2, forallb_True in Hall. rewrite Forall_forall in Hall.
  specialize (Hall _ Hin). simpl in Hall. apply bool_decide_unpack in Hall.
  split; [done|]. intros k v Hkv. by apply get_prop_NoDup.
Qed.

Lemma nested_objects_have_unique_keys_witness :
  NoDup (Js.keys [("es2017", VBool true); ("node", VBool true)])
  ∧ ∀ k v, (k, v) ∈ [("es2017", VBool true); ("node", VBool true)] →
           Js.get_prop k [("es2017", VBool true); ("node", VBool true)] = Some v.
Proof.
  apply (nested_objects_have_unique_keys [("es2017", VBool true); ("node", VBool true)]).
  do 5 apply list_elem_of_further. apply list_elem_of_here.
Defined.

(** ** How the rule entries are written *)

(** X7: at every scope level a rule that is switched off is written as
    the bare string ['off'], and an entry in array form has severity
    ['error'] and at least one option after the severity. *)
Theorem off_is_bare_and_arrays_carry_options
    (scope : list (string * value)) (id : string) (entry : value) :
  scope ∈ scopes module_exports → (id, entry) ∈ scope →
  (severity_of entry = Some "off" → entry = VStr "off")
  ∧ (∀ elems, entry = VArr elems →
       severity_of entry = Some "error" ∧ options_of entry ≠ []).
Proof.
  intros Hscope Hentry.
  pose proof (scopes_forallb bare_or_error_with_options scope id entry
                eq_refl Hscope Hentry) as Hshape.
  destruct entry as [| | sev | [|[| | sev | |] [|opt opts]] |]; try done;
    simpl in *.
  - split; [by intros [= ->] | done].
  - apply bool_decide_eq_true_1 in Hshape as ->.
    split; [done | intros elems _; by split].
Qed.

Lemma off_is_bare_and_arrays_carry_options_witness :
  (severity_of (VArr [VStr "error"; VObj [("allow", VArr [])]]) = Some "off" →
   VArr [VStr "error"; VObj [("allow", VArr [])]] = VStr "off")
  ∧ (∀ elems, VArr [VStr "error"; VObj [("allow", VArr [])]] = VArr elems →
       severity_of (VArr [VStr "error"; VObj [("allow", VArr [])]]) = Some "error"
       ∧ options_of (VArr [VStr "error"; VObj [("allow", VArr [])]]) ≠ []).
Proof.
  apply (off_is_bare_and_arrays_carry_options js_ts_rules "import/no-internal-modules").
  - do 2 apply list_elem_of_further. apply list_elem_of_here.
  - do 6 apply list_elem_of_further. apply list_elem_of_here.
Defined.

(** ** The naming-convention options, lines 161 to 182 *)

Example naming_selectors :
  omap selector_of (naming_options js_ts_override)
  = ["default"; "variable"; "parameter"; "typeLike"].
Proof. reflexivity. Qed.

Lemma naming_options_computed :
  forallb (fun opt =>
             match selector_of opt with
             | Some sel =>
                 bool_decide (formats_of opt ≠ [])
                 && bool_decide (length (formats_of opt)
                                 = length (Js.elems_of (Js.get "format" opt)))
                 && bool_decide (formats_of opt ⊆ ["camelCase"; "PascalCase"; "UPPER_CASE"])
                 && bool_decide (allows_leading_underscore opt = true ↔ sel = "parameter")
             | None => false
             end) (naming_options js_ts_override) = true.
Proof. by vm_compute. Qed.

(** X9: every option object of the naming-convention rule names a
    selector and gives it a non-empty list of formats, all of them
    strings among ['camelCase'], ['PascalCase'] and ['UPPER_CASE']; a
    leading underscore is allowed for the ['parameter'] selector and for
    no other. *)
Theorem naming_option_shape (opt : value) :
  opt ∈ naming_options js_ts_override →
  ∃ sel, selector_of opt = Some sel
         ∧ formats_of opt ≠ []
         ∧ length (formats_of opt) = length (Js.elems_of (Js.get "format" opt))
         ∧ formats_of opt ⊆ ["camelCase"; "PascalCase"; "UPPER_CASE"]
         ∧ (allows_leading_underscore opt = true ↔ sel = "parameter").
Proof.
  intros Hin. pose proof naming_options_computed as Hall.
  apply Is_true_true_2, forallb_True in Hall. rewrite Forall_forall in Hall.
  specialize (Hall opt Hin). simpl in Hall.
  destruct (selector_of opt) as [sel|]; [|done]. exists sel.
  apply Is_true_true_1 in Hall.
  apply andb_true_iff in Hall as [Hall Hunderscore].
  apply andb_true_iff in Hall as [Hall Hknown].
  apply andb_true_iff in Hall as [Hnonempty Hstrings].
  split; [done|]. split_and!; by eapply bool_decide_eq_true_1.
Qed.

Lemma naming_option_shape_witness :
  ∃ sel,
    selector_of (VObj [("selector", VStr "parameter");
                       ("format", VArr [VStr "camelCase"]);
                       ("leadingUnderscore", VStr "allow")]) = Some sel
    ∧ formats_of (VObj [("selector", VStr "parameter");
                        ("format", VArr [VStr "camelCase"]);
                        ("leadingUnderscore", VStr "allow")]) ≠ []
    ∧ length (formats_of (VObj [("selector", VStr "parameter");
                                ("format", VArr [VStr "camelCase"]);
                                ("leadingUnderscore", VStr "allow")]))
      = length (Js.elems_of
                  (Js.get "format"
                     (VObj [("selector", VStr "parameter");
                            ("format", VArr [VStr "camelCase"]);
                            ("leadingUnderscore", VStr "allow")])))
    ∧ formats_of (VObj [("selector", VStr "parameter");
                        ("format", VArr [VStr "camelCase"]);
                        ("leadingUnderscore", VStr "allow")])
      ⊆ ["camelCase"; "PascalCase"; "UPPER_CASE"]
    ∧ (allows_leading_underscore
         (VObj [("selector", VStr "parameter");
                ("format", VArr [VStr "camelCase"]);
                ("leadingUnderscore", VStr "allow")]) = true
       ↔ sel = "parameter").
Proof.
  apply (naming_option_shape
           (VObj [("selector", VStr "parameter");
                  ("format", VArr [VStr "camelCase"]);
                  ("leadingUnderscore", VStr "allow")])).
  do 2 apply list_elem_of_further. apply list_elem_of_here.
Defined.

(** The selectors of the options are pairwise different: each selector
    is configured once. *)
Lemma naming_selectors_NoDup :
  NoDup (omap selector_of (naming_options js_ts_override)).
Proof. apply (bool_decide_unpack _). by vm_compute. Qed.
